(** * cdk-serverless-web-app-pattern: the stacks, the sample handler and the demo page

    A shallow embedding of the three CDK stacks declared in the topology
    source ([WafStack], [BackendStack], [FrontendStack], and the deprecated
    [CdkServerlessWebAppPatternStack]), of the handler of
    [lambda/sample-lambda-1/index.js] and of the script of [web/index.html].

    A stack constructor is a sequence of [new C(scope, id, props)] calls, each
    of which adds a child to the construct tree.  It is embedded as a
    computation in a state-and-error monad over the tree under construction:
    adding a second child with an id already taken under the same scope is the
    one way such a call throws.  Only the constructs the source creates appear
    in the tree; the properties modelled are the ones the source sets. *)

From Stdlib Require Import ZArith String Ascii List Bool Lia.
From stdpp Require Import base option list strings pretty gmap.

Local Open Scope string_scope.
Local Open Scope list_scope.
Local Open Scope Z_scope.

(** ** Results of a constructor call *)

Inductive result (A : Type) : Type :=
| Ok (a : A)
| Err (msg : string).
Arguments Ok {A} a.
Arguments Err {A} msg.

Definition is_ok {A} (r : result A) : bool :=
  match r with Ok _ => true | Err _ => false end.

(** ** Construct paths and deploy-time tokens *)

Definition Path := list string.

(** A reference to a construct: the path of the stack that owns it and the
    path of the construct below that stack. *)
Record Ref := { ref_stack : Path; ref_path : Path }.

(** A value only known at deploy time: an attribute of a declared resource. *)
Inductive Token := GetAtt (target : Ref) (attr : string).

(** ** The parts of aws-cdk-lib the source uses *)

Module cdk.
Record Environment := { account : option string; region : option string }.
Record StackProps :=
  { env : option Environment; crossRegionReferences : option bool }.
Inductive RemovalPolicy := DESTROY | RETAIN | SNAPSHOT.
Record CfnOutputProps := { value : Token }.
End cdk.

Module wafv2.
Inductive EmptyAction := allow | block.
Record VisibilityConfig :=
  { sampledRequestsEnabled : bool;
    cloudWatchMetricsEnabled : bool;
    metricName : string }.
Record RateBasedStatement := { limit : Z; aggregateKeyType : string }.
Record Statement := { rateBasedStatement : RateBasedStatement }.
Record Rule :=
  { name : string;
    priority : Z;
    statement : Statement;
    action : EmptyAction;
    visibilityConfig : VisibilityConfig }.
Record CfnWebACLProps :=
  { scope : string;
    defaultAction : EmptyAction;
    aclVisibilityConfig : VisibilityConfig;
    rules : list Rule }.
(** The object [new wafv2.CfnWebACL(...)] evaluates to. *)
Record CfnWebACL := { ref : Ref; props : CfnWebACLProps }.
Definition attrArn (w : CfnWebACL) : Token := GetAtt (ref w) "Arn".
End wafv2.

Module lambda.
Inductive Runtime := NODEJS_18_X.
Inductive Code := fromAsset (path : string).
Record FunctionProps :=
  { runtime : Runtime; handler : string; code : Code }.
Record Function := { ref : Ref; props : FunctionProps }.
End lambda.

Module apigateway.
Inductive CorsOrigins := ALL_ORIGINS.
Inductive CorsMethods := ALL_METHODS.
Record CorsOptions :=
  { allowOrigins : CorsOrigins; allowMethods : CorsMethods }.
Record RestApiProps :=
  { restApiName : string;
    description : string;
    defaultCorsPreflightOptions : CorsOptions }.
(** [RestApi] and the resources below it are mutated after creation
    ([addResource], [addMethod]): the object is its place in the tree. *)
Record RestApi := { ref : Ref; props : RestApiProps }.
Record Resource := { res_ref : Ref; pathPart : string }.
Inductive Integration := LambdaIntegration (fn : lambda.Function).
Record Method :=
  { method_ref : Ref; httpMethod : string; integration : Integration }.
(** [api.root]: the resource for the path [/]; it is the api's own node. *)
Definition root (api : RestApi) : Resource :=
  {| res_ref := ref api; pathPart := "" |}.
End apigateway.

Module s3.
Inductive BlockPublicAccess := BLOCK_ALL | BLOCK_ACLS.
Record BucketProps :=
  { websiteIndexDocument : string;
    websiteErrorDocument : string;
    publicReadAccess : bool;
    blockPublicAccess : BlockPublicAccess;
    removalPolicy : cdk.RemovalPolicy }.
Record Bucket := { ref : Ref; props : BucketProps }.
End s3.

Module origins.
Inductive Origin :=
| S3BucketOrigin_withOriginAccessControl (bucket : s3.Bucket)
| RestApiOrigin (api : apigateway.RestApi).
End origins.

Module cloudfront.
Inductive ViewerProtocolPolicy := REDIRECT_TO_HTTPS | HTTPS_ONLY | ALLOW_ALL.
Inductive CachePolicy := CACHING_DISABLED | CACHING_OPTIMIZED.
Record BehaviorOptions :=
  { origin : origins.Origin;
    viewerProtocolPolicy : ViewerProtocolPolicy;
    cachePolicy : option CachePolicy }.
Record DistributionProps :=
  { defaultBehavior : BehaviorOptions;
    additionalBehaviors : gmap string BehaviorOptions;
    defaultRootObject : string;
    webAclId : Token }.
Record Distribution := { ref : Ref; props : DistributionProps }.
Definition distributionDomainName (d : Distribution) : Token :=
  GetAtt (ref d) "DomainName".
End cloudfront.

Module s3deploy.
Inductive Source := asset (path : string).
Record BucketDeploymentProps :=
  { sources : list Source;
    destinationBucket : s3.Bucket;
    distribution : cloudfront.Distribution;
    distributionPaths : list string }.
End s3deploy.

(** ** The construct tree *)

Inductive Kind :=
| KStack (props : option cdk.StackProps)
| KCfnWebACL (props : wafv2.CfnWebACLProps)
| KFunction (props : lambda.FunctionProps)
| KRestApi (props : apigateway.RestApiProps)
| KResource (pathPart : string)
| KMethod (httpMethod : string) (integration : apigateway.Integration)
| KBucket (props : s3.BucketProps)
| KDistribution (props : cloudfront.DistributionProps)
| KBucketDeployment (props : s3deploy.BucketDeploymentProps)
| KCfnOutput (props : cdk.CfnOutputProps).

#[local] Unset Elimination Schemes.
Inductive Construct :=
| Node (kind : Kind) (children : list (string * Construct)).
#[local] Set Elimination Schemes.

Definition kind (c : Construct) : Kind := match c with Node k _ => k end.
Definition children (c : Construct) : list (string * Construct) :=
  match c with Node _ cs => cs end.

Fixpoint tryFindChild (id : string) (cs : list (string * Construct))
  : option Construct :=
  match cs with
  | [] => None
  | (i, c) :: cs' => if String.eqb i id then Some c else tryFindChild id cs'
  end.

Fixpoint replaceChild (id : string) (c' : Construct)
    (cs : list (string * Construct)) : list (string * Construct) :=
  match cs with
  | [] => []
  | (i, c) :: cs' =>
      if String.eqb i id then (i, c') :: cs'
      else (i, c) :: replaceChild id c' cs'
  end.

(** [new C(scope, id, ...)]: the new construct becomes the last child of the
    construct at [scope]; an id already in use below that scope throws. *)
Fixpoint addChild (scope : Path) (id : string) (c : Construct)
    (t : Construct) {struct scope} : result Construct :=
  match scope with
  | [] =>
      match tryFindChild id (children t) with
      | Some _ => Err ("There is already a Construct with name '" +:+ id +:+ "'")
      | None => Ok (Node (kind t) (children t ++ [(id, c)]))
      end
  | s :: scope' =>
      match tryFindChild s (children t) with
      | None => Err ("No construct with name '" +:+ s +:+ "'")
      | Some sub =>
          match addChild scope' id c sub with
          | Ok sub' => Ok (Node (kind t) (replaceChild s sub' (children t)))
          | Err e => Err e
          end
      end
  end.

(** The construct below [t] at a path. *)
Fixpoint findAt (p : Path) (t : Construct) : option Construct :=
  match p with
  | [] => Some t
  | s :: p' =>
      match tryFindChild s (children t) with
      | None => None
      | Some sub => findAt p' sub
      end
  end.

(** ** The constructor monad: the stack under construction is the state *)

Record Building := { stack_path : Path; tree : Construct }.

Definition Ctor (A : Type) : Type := Building -> result (A * Building).

#[export] Instance ctor_ret : MRet Ctor := fun A a b => Ok (a, b).

#[export] Instance ctor_bind : MBind Ctor := fun A B k m b =>
  match m b with
  | Ok (a, b') => k a b'
  | Err e => Err e
  end.

(** [new C(scope, id, ...)] for a scope of the stack being built: adds the
    node and yields the reference the new object carries. *)
Definition construct (scope : Ref) (id : string) (k : Kind) : Ctor Ref :=
  fun b =>
    match addChild (ref_path scope) id (Node k []) (tree b) with
    | Ok t' =>
        Ok ({| ref_stack := stack_path b; ref_path := ref_path scope ++ [id] |},
            {| stack_path := stack_path b; tree := t' |})
    | Err e => Err e
    end.

(** [this], as a scope. *)
Definition self : Ctor Ref :=
  fun b => Ok ({| ref_stack := stack_path b; ref_path := [] |}, b).

(** [super(scope, id, props)] of a class extending [cdk.Stack], followed by
    the body of its constructor. *)
Definition newStack {A} (scope : Path) (id : string)
    (props : option cdk.StackProps) (body : Ctor A) : result (A * Construct) :=
  match body {| stack_path := scope ++ [id]; tree := Node (KStack props) [] |} with
  | Ok (a, b) => Ok (a, tree b)
  | Err e => Err e
  end.

(** ** Constructors of the library classes *)

Definition new_CfnWebACL (scope : Ref) (id : string)
    (p : wafv2.CfnWebACLProps) : Ctor wafv2.CfnWebACL :=
  r ← construct scope id (KCfnWebACL p);
  mret {| wafv2.ref := r; wafv2.props := p |}.

Definition new_Function (scope : Ref) (id : string)
    (p : lambda.FunctionProps) : Ctor lambda.Function :=
  r ← construct scope id (KFunction p);
  mret {| lambda.ref := r; lambda.props := p |}.

Definition new_RestApi (scope : Ref) (id : string)
    (p : apigateway.RestApiProps) : Ctor apigateway.RestApi :=
  r ← construct scope id (KRestApi p);
  mret {| apigateway.ref := r; apigateway.props := p |}.

(** [parent.addResource(pathPart)]: a [Resource] whose id is its path part. *)
Definition addResource (parent : apigateway.Resource) (pathPart : string)
  : Ctor apigateway.Resource :=
  r ← construct (apigateway.res_ref parent) pathPart (KResource pathPart);
  mret {| apigateway.res_ref := r; apigateway.pathPart := pathPart |}.

(** [resource.addMethod(httpMethod, integration)]: a [Method] whose id is
    the HTTP method. *)
Definition addMethod (resource : apigateway.Resource) (httpMethod : string)
    (i : apigateway.Integration) : Ctor apigateway.Method :=
  r ← construct (apigateway.res_ref resource) httpMethod (KMethod httpMethod i);
  mret {| apigateway.method_ref := r;
          apigateway.httpMethod := httpMethod;
          apigateway.integration := i |}.

Definition new_Bucket (scope : Ref) (id : string) (p : s3.BucketProps)
  : Ctor s3.Bucket :=
  r ← construct scope id (KBucket p);
  mret {| s3.ref := r; s3.props := p |}.

Definition new_Distribution (scope : Ref) (id : string)
    (p : cloudfront.DistributionProps) : Ctor cloudfront.Distribution :=
  r ← construct scope id (KDistribution p);
  mret {| cloudfront.ref := r; cloudfront.props := p |}.

Definition new_BucketDeployment (scope : Ref) (id : string)
    (p : s3deploy.BucketDeploymentProps) : Ctor Ref :=
  construct scope id (KBucketDeployment p).

Definition new_CfnOutput (scope : Ref) (id : string)
    (p : cdk.CfnOutputProps) : Ctor Ref :=
  construct scope id (KCfnOutput p).

(** ** The stacks *)

(** *** WAF Stack (us-east-1) *)

Record WafStack := { WafStack_node : Construct; webAcl : wafv2.CfnWebACL }.

Definition webAclProps : wafv2.CfnWebACLProps :=
  {| wafv2.scope := "CLOUDFRONT";
     wafv2.defaultAction := wafv2.allow;
     wafv2.aclVisibilityConfig :=
       {| wafv2.sampledRequestsEnabled := true;
          wafv2.cloudWatchMetricsEnabled := true;
          wafv2.metricName := "WebACL" |};
     wafv2.rules :=
       [ {| wafv2.name := "RateLimitRule";
            wafv2.priority := 1;
            wafv2.statement :=
              {| wafv2.rateBasedStatement :=
                   {| wafv2.limit := 2000;
                      wafv2.aggregateKeyType := "IP" |} |};
            wafv2.action := wafv2.block;
            wafv2.visibilityConfig :=
              {| wafv2.sampledRequestsEnabled := true;
                 wafv2.cloudWatchMetricsEnabled := true;
                 wafv2.metricName := "RateLimitRule" |} |} ] |}.

Definition new_WafStack (scope : Path) (id : string)
    (props : option cdk.StackProps) : result WafStack :=
  match
    newStack scope id props
      (this ← self;
       new_CfnWebACL this "WebACL" webAclProps)
  with
  | Ok (acl, node) => Ok {| WafStack_node := node; webAcl := acl |}
  | Err e => Err e
  end.

(** *** Backend Stack - Lambda & API Gateway (Sydney) *)

Record BackendStack :=
  { BackendStack_node : Construct; apiGateway : apigateway.RestApi }.

Definition new_BackendStack (scope : Path) (id : string)
    (props : option cdk.StackProps) : result BackendStack :=
  match
    newStack scope id props
      (this ← self;
       (* Lambda functions *)
       lambdaFunction1 ← new_Function this "ApiHandler1"
         {| lambda.runtime := lambda.NODEJS_18_X;
            lambda.handler := "index.handler";
            lambda.code := lambda.fromAsset "lambda/sample-lambda-1" |};
       lambdaFunction2 ← new_Function this "ApiHandler2"
         {| lambda.runtime := lambda.NODEJS_18_X;
            lambda.handler := "index.handler";
            lambda.code := lambda.fromAsset "lambda/sample-lambda-2" |};
       (* API Gateway *)
       apiGateway ← new_RestApi this "Api"
         {| apigateway.restApiName := "Serverless API";
            apigateway.description := "API Gateway for serverless web app";
            apigateway.defaultCorsPreflightOptions :=
              {| apigateway.allowOrigins := apigateway.ALL_ORIGINS;
                 apigateway.allowMethods := apigateway.ALL_METHODS |} |};
       (* Integrations *)
       let integration1 := apigateway.LambdaIntegration lambdaFunction1 in
       let integration2 := apigateway.LambdaIntegration lambdaFunction2 in
       (* Add /api resource and sub-resources *)
       api ← addResource (apigateway.root apiGateway) "api";
       lambda1Resource ← addResource api "lambda-1";
       lambda2Resource ← addResource api "lambda-2";
       _ ← addMethod lambda1Resource "GET" integration1;
       _ ← addMethod lambda2Resource "GET" integration2;
       mret apiGateway)
  with
  | Ok (api, node) => Ok {| BackendStack_node := node; apiGateway := api |}
  | Err e => Err e
  end.

(** *** Frontend Stack - S3 & CloudFront (Sydney) *)

Record FrontendStackProps :=
  { stackProps : cdk.StackProps;
    props_apiGateway : apigateway.RestApi;
    props_webAcl : wafv2.CfnWebACL }.

Record FrontendStack :=
  { FrontendStack_node : Construct;
    bucket : s3.Bucket;
    distribution : cloudfront.Distribution }.

Definition new_FrontendStack (scope : Path) (id : string)
    (props : FrontendStackProps) : result FrontendStack :=
  match
    newStack scope id (Some (stackProps props))
      (this ← self;
       (* S3 Bucket for static website *)
       bucket ← new_Bucket this "WebsiteBucket"
         {| s3.websiteIndexDocument := "index.html";
            s3.websiteErrorDocument := "error.html";
            s3.publicReadAccess := false;
            s3.blockPublicAccess := s3.BLOCK_ALL;
            s3.removalPolicy := cdk.DESTROY |};
       (* S3 Origin *)
       let s3Origin := origins.S3BucketOrigin_withOriginAccessControl bucket in
       (* API Gateway Origin *)
       let apiOrigin := origins.RestApiOrigin (props_apiGateway props) in
       (* CloudFront Distribution *)
       distribution ← new_Distribution this "Distribution"
         {| cloudfront.defaultBehavior :=
              {| cloudfront.origin := s3Origin;
                 cloudfront.viewerProtocolPolicy :=
                   cloudfront.REDIRECT_TO_HTTPS;
                 cloudfront.cachePolicy := None |};
            cloudfront.additionalBehaviors :=
              {[ "/api/*" :=
                   {| cloudfront.origin := apiOrigin;
                      cloudfront.viewerProtocolPolicy :=
                        cloudfront.REDIRECT_TO_HTTPS;
                      cloudfront.cachePolicy :=
                        Some cloudfront.CACHING_DISABLED |} ]};
            cloudfront.defaultRootObject := "index.html";
            cloudfront.webAclId := wafv2.attrArn (props_webAcl props) |};
       (* Deploy web assets to S3 with CloudFront invalidation *)
       _ ← new_BucketDeployment this "DeployWebsite"
         {| s3deploy.sources := [s3deploy.asset "web"];
            s3deploy.destinationBucket := bucket;
            s3deploy.distribution := distribution;
            s3deploy.distributionPaths := ["/*"] |};
       _ ← new_CfnOutput this "DistributionDomainName"
         {| cdk.value := cloudfront.distributionDomainName distribution |};
       mret (bucket, distribution))
  with
  | Ok ((b, d), node) =>
      Ok {| FrontendStack_node := node; bucket := b; distribution := d |}
  | Err e => Err e
  end.

(** *** Main Stack - deprecated, kept for compatibility *)

Record CdkServerlessWebAppPatternStack :=
  { CdkServerlessWebAppPatternStack_node : Construct }.

Definition new_CdkServerlessWebAppPatternStack (scope : Path) (id : string)
    (props : option cdk.StackProps) : result CdkServerlessWebAppPatternStack :=
  match
    newStack scope id props
      (* This stack is now empty - resources moved to separate stacks *)
      (mret tt)
  with
  | Ok (_, node) => Ok {| CdkServerlessWebAppPatternStack_node := node |}
  | Err e => Err e
  end.

(** ** Reading a construct tree *)

(** All constructs of a tree, in creation order below each scope, each with
    its path from the root of the tree. *)
Fixpoint descendants (p : Path) (c : Construct) : list (Path * Kind) :=
  match c with
  | Node k cs =>
      (p, k) ::
      (fix below (cs : list (string * Construct)) : list (Path * Kind) :=
         match cs with
         | [] => []
         | (i, sub) :: cs' => descendants (p ++ [i]) sub ++ below cs'
         end) cs
  end.

(** The resources a stack declares: everything below the stack's own node. *)
Definition resources (stack : Construct) : list (Path * Kind) :=
  tail (descendants [] stack).

Definition webAcls (stack : Construct) : list wafv2.CfnWebACLProps :=
  omap (fun r => match r.2 with KCfnWebACL p => Some p | _ => None end)
       (resources stack).

Definition buckets (stack : Construct) : list s3.BucketProps :=
  omap (fun r => match r.2 with KBucket p => Some p | _ => None end)
       (resources stack).

Definition distributions (stack : Construct)
  : list cloudfront.DistributionProps :=
  omap (fun r => match r.2 with KDistribution p => Some p | _ => None end)
       (resources stack).

Definition bucketDeployments (stack : Construct)
  : list s3deploy.BucketDeploymentProps :=
  omap (fun r => match r.2 with KBucketDeployment p => Some p | _ => None end)
       (resources stack).


(** *** The filter policy *)




(** *** The route table of a [RestApi] *)






(** *** The behaviors of a [Distribution] *)

(** A path pattern: [*] stands for any characters, [?] for one character. *)
Fixpoint pathMatches (pattern : string) : string -> bool :=
  match pattern with
  | EmptyString =>
      fun path => match path with EmptyString => true | _ => false end
  | String c pattern' =>
      if Ascii.eqb c "*" then
        fix star (path : string) : bool :=
          pathMatches pattern' path
          || match path with
             | EmptyString => false
             | String _ path' => star path'
             end
      else
        fun path =>
          match path with
          | EmptyString => false
          | String d path' =>
              (Ascii.eqb c "?" || Ascii.eqb c d) && pathMatches pattern' path'
          end
  end.

(** The cache behaviors of a distribution: the additional ones, then the
    default one, whose path pattern is [*]. *)
Definition behaviors (d : cloudfront.DistributionProps)
  : list (string * cloudfront.BehaviorOptions) :=
  map_to_list (cloudfront.additionalBehaviors d)
  ++ [("*", cloudfront.defaultBehavior d)].

(** The behavior that serves a request path: the first whose pattern
    matches. *)
Definition behaviorFor (d : cloudfront.DistributionProps) (path : string)
  : cloudfront.BehaviorOptions :=
  match List.find (fun b => pathMatches b.1 path) (behaviors d) with
  | Some b => b.2
  | None => cloudfront.defaultBehavior d
  end.

(** A behavior without a cache policy gets the toolkit's default one, which
    caches; only [CACHING_DISABLED] keeps responses out of the edge cache. *)
Definition mayCache (b : cloudfront.BehaviorOptions) : bool :=
  match cloudfront.cachePolicy b with
  | Some cloudfront.CACHING_DISABLED => false
  | _ => true
  end.

(** *** The static asset set *)

(** The files of the repository below its asset directories. *)
Definition repositoryFiles : list (string * string) :=
  [ ("lambda/sample-lambda-1", "index.js");
    ("web", "index.html") ].

(** [Source.asset(dir)]: the files of the directory [dir]. *)
Definition assetFiles (s : s3deploy.Source) : list string :=
  match s with
  | s3deploy.asset dir =>
      omap (fun f => if String.eqb f.1 dir then Some f.2 else None)
           repositoryFiles
  end.

(** The objects a [BucketDeployment] uploads into its destination bucket. *)
Definition publishedFiles (p : s3deploy.BucketDeploymentProps) : list string :=
  concat (assetFiles <$> s3deploy.sources p).

(** *** Declaring a filter policy *)

(** The constructor of [WafStack] for a policy [p] in place of the literal
    [webAclProps]: what graph construction does with a policy handed to
    [new wafv2.CfnWebACL]. *)
Definition declareWebACL (p : wafv2.CfnWebACLProps) (scope : Path)
    (id : string) (props : option cdk.StackProps) : result WafStack :=
  match
    newStack scope id props
      (this ← self;
       new_CfnWebACL this "WebACL" p)
  with
  | Ok (acl, node) => Ok {| WafStack_node := node; webAcl := acl |}
  | Err e => Err e
  end.


(** * The JavaScript the handler and the page are written in *)

Module JS.

(** Values.  An object is its own properties in insertion order; numbers
    are the integers; strings are byte strings (UTF-8). *)
#[local] Unset Elimination Schemes.
Inductive value :=
| undefined
| null
| boolean (b : bool)
| number (n : Z)
| str (s : string)
| object (properties : list (string * value))
| array (elements : list value).
#[local] Set Elimination Schemes.

(** ToBoolean. *)
Definition truthy (v : value) : bool :=
  match v with
  | undefined | null => false
  | boolean b => b
  | number n => negb (n =? 0)
  | str s => negb (String.eqb s "")
  | object _ | array _ => true
  end.

(** [a || b] *)
Definition or (a b : value) : value := if truthy a then a else b.

Fixpoint getOwn (key : string) (properties : list (string * value)) : value :=
  match properties with
  | [] => undefined
  | (k, v) :: properties' =>
      if String.eqb k key then v else getOwn key properties'
  end.

(** [v.key], for a key that is not a built-in property: reading a property
    of [undefined] or [null] throws a TypeError. *)
Definition get (v : value) (key : string) : result value :=
  match v with
  | undefined =>
      Err ("TypeError: Cannot read properties of undefined (reading '"
           +:+ key +:+ "')")
  | null =>
      Err ("TypeError: Cannot read properties of null (reading '"
           +:+ key +:+ "')")
  | object properties => Ok (getOwn key properties)
  | _ => Ok undefined
  end.

(** [v?.key] *)
Definition getOptional (v : value) (key : string) : value :=
  match v with
  | object properties => getOwn key properties
  | _ => undefined
  end.

(** *** JSON.stringify *)

Definition dquote : string := String (ascii_of_nat 34) "".
Definition newline : string := String (ascii_of_nat 10) "".

Definition hexDigit (n : nat) : ascii :=
  ascii_of_nat (if Nat.ltb n 10 then 48 + n else 87 + n).

(** One character of a quoted JSON string. *)
Definition quoteChar (c : ascii) : string :=
  let n := nat_of_ascii c in
  if Nat.eqb n 34 then "\" +:+ dquote
  else if Nat.eqb n 92 then "\\"
  else if Nat.eqb n 8 then "\b"
  else if Nat.eqb n 12 then "\f"
  else if Nat.eqb n 10 then "\n"
  else if Nat.eqb n 13 then "\r"
  else if Nat.eqb n 9 then "\t"
  else if Nat.ltb n 32 then
    "\u00" +:+ String (hexDigit (n / 16)) (String (hexDigit (n mod 16)) "")
  else String c "".

Fixpoint quoteChars (s : string) : string :=
  match s with
  | EmptyString => ""
  | String c s' => quoteChar c +:+ quoteChars s'
  end.

Definition quote (s : string) : string := dquote +:+ quoteChars s +:+ dquote.

(** The text of an object or array from the texts of its members. *)
Definition wrap (opening closing gap stepback indent : string)
    (partial : list string) : string :=
  match partial with
  | [] => opening +:+ closing
  | _ =>
      if String.eqb gap "" then
        opening +:+ String.concat "," partial +:+ closing
      else
        opening +:+ newline +:+ indent
        +:+ String.concat ("," +:+ newline +:+ indent) partial
        +:+ newline +:+ stepback +:+ closing
  end.

(** SerializeJSONProperty; [None] is the result [undefined]. *)
Fixpoint serialize (gap indent : string) (v : value) : option string :=
  match v with
  | undefined => None
  | null => Some "null"
  | boolean b => Some (if b then "true" else "false")
  | number n => Some (pretty n)
  | str s => Some (quote s)
  | object properties =>
      let stepback := indent in
      let indent := indent +:+ gap in
      Some (wrap "{" "}" gap stepback indent
        ((fix members (ps : list (string * value)) : list string :=
            match ps with
            | [] => []
            | (k, v) :: ps' =>
                match serialize gap indent v with
                | Some text =>
                    (quote k +:+ ":"
                     +:+ (if String.eqb gap "" then "" else " ") +:+ text)
                    :: members ps'
                | None => members ps'
                end
            end) properties))
  | array elements =>
      let stepback := indent in
      let indent := indent +:+ gap in
      Some (wrap "[" "]" gap stepback indent
        ((fix items (vs : list value) : list string :=
            match vs with
            | [] => []
            | v :: vs' =>
                default "null" (serialize gap indent v) :: items vs'
            end) elements))
  end.

Fixpoint spaces (n : nat) : string :=
  match n with O => "" | S n' => String " " (spaces n') end.

(** [JSON.stringify(v, null, space)]; [JSON.stringify(v)] is the case
    [space = 0]. *)
Definition JSON_stringify (v : value) (space : nat) : option string :=
  serialize (spaces (Nat.min space 10)) "" v.

(** The text a template literal or [console.log] shows for the result. *)
Definition shown (text : option string) : string := default "undefined" text.

End JS.

(** ** Date: time values and their ISO-8601 text *)

Module Date.

Definition msPerDay : Z := 86400000.

(** The largest time value a Date holds, 8.64e15 ms on either side of the
    epoch. *)
Definition maxTime : Z := 8640000000000000.

Definition isLeapYear (y : Z) : bool :=
  (y mod 4 =? 0) && (negb (y mod 100 =? 0) || (y mod 400 =? 0)).

Definition daysInMonth (y m : Z) : Z :=
  if m =? 2 then (if isLeapYear y then 29 else 28)
  else if (m =? 4) || (m =? 6) || (m =? 9) || (m =? 11) then 30
  else 31.

(** Year (counted from 1 March), month and day of the month of a day of a
    400-year era, the era starting on 1 March of a year divisible by 400. *)
Definition civilOfEraDay (doe : Z) : Z * Z * Z :=
  let yoe := (doe - doe / 1460 + doe / 36524 - doe / 146096) / 365 in
  let doy := doe - (365 * yoe + yoe / 4 - yoe / 100) in
  let mp := (5 * doy + 2) / 153 in
  let d := doy - (153 * mp + 2) / 5 + 1 in
  let m := if mp <? 10 then mp + 3 else mp - 9 in
  (yoe, m, d).

Definition eraDayOfCivil (yoe m d : Z) : Z :=
  let mp := if 2 <? m then m - 3 else m + 9 in
  let doy := (153 * mp + 2) / 5 + d - 1 in
  yoe * 365 + yoe / 4 - yoe / 100 + doy.

(** Year, month and day of a day number, day 0 being 1970-01-01. *)
Definition civilFromDays (day : Z) : Z * Z * Z :=
  let z := day + 719468 in
  let era := z / 146097 in
  let '(yoe, m, d) := civilOfEraDay (z mod 146097) in
  (yoe + era * 400 + (if m <=? 2 then 1 else 0), m, d).

Definition daysFromCivil (y m d : Z) : Z :=
  let y := y - (if m <=? 2 then 1 else 0) in
  let era := y / 400 in
  era * 146097 + eraDayOfCivil (y mod 400) m d - 719468.

(** *** Fixed-width decimal fields *)

Definition digitChar (d : Z) : ascii := ascii_of_N (48 + Z.to_N d).

Definition digitValue (c : ascii) : option Z :=
  let n := Z.of_N (N_of_ascii c) in
  if (48 <=? n) && (n <=? 57) then Some (n - 48) else None.

(** [n] in [width] decimal digits, most significant first. *)
Fixpoint digits (width : nat) (n : Z) : string :=
  match width with
  | O => ""
  | S w => String (digitChar (n / 10 ^ Z.of_nat w))
                  (digits w (n mod 10 ^ Z.of_nat w))
  end.

(** Reads [width] decimal digits off the front of [s]. *)
Fixpoint readDigits (width : nat) (acc : Z) (s : string)
  : option (Z * string) :=
  match width with
  | O => Some (acc, s)
  | S w =>
      match s with
      | EmptyString => None
      | String c s' =>
          match digitValue c with
          | Some d => readDigits w (acc * 10 + d) s'
          | None => None
          end
      end
  end.

(** Reads the character [c] off the front of [s]. *)
Definition readChar (c : ascii) (s : string) : option string :=
  match s with
  | String c' s' => if Ascii.eqb c c' then Some s' else None
  | EmptyString => None
  end.

(** *** toISOString *)

Definition yearText (y : Z) : string :=
  if (0 <=? y) && (y <=? 9999) then digits 4 y
  else (if y <? 0 then "-" else "+") +:+ digits 6 (Z.abs y).

(** [new Date(t).toISOString()] for a time value [t]. *)
Definition toISOString (t : Z) : string :=
  let '(y, m, d) := civilFromDays (t / msPerDay) in
  let msInDay := t mod msPerDay in
  yearText y +:+ "-" +:+ digits 2 m +:+ "-" +:+ digits 2 d
  +:+ "T" +:+ digits 2 (msInDay / 3600000)
  +:+ ":" +:+ digits 2 (msInDay / 60000 mod 60)
  +:+ ":" +:+ digits 2 (msInDay / 1000 mod 60)
  +:+ "." +:+ digits 3 (msInDay mod 1000) +:+ "Z".

(** *** Reading the text back *)

Definition readYear (s : string) : option (Z * string) :=
  match s with
  | String c s' =>
      if Ascii.eqb c "+" then readDigits 6 0 s'
      else if Ascii.eqb c "-" then
        match readDigits 6 0 s' with
        | Some (y, rest) => if y =? 0 then None else Some (- y, rest)
        | None => None
        end
      else readDigits 4 0 s
  | EmptyString => None
  end.

(** The time value of a complete ISO-8601 date-time in UTC,
    [YYYY-MM-DDTHH:mm:ss.sssZ] with a four-digit year or a signed six-digit
    one; [None] for any other text and for a field out of range. *)
Definition parseISOString (s : string) : option Z :=
  '(y, s) ← readYear s;
  s ← readChar "-" s;
  '(m, s) ← readDigits 2 0 s;
  s ← readChar "-" s;
  '(d, s) ← readDigits 2 0 s;
  s ← readChar "T" s;
  '(hh, s) ← readDigits 2 0 s;
  s ← readChar ":" s;
  '(mm, s) ← readDigits 2 0 s;
  s ← readChar ":" s;
  '(ss, s) ← readDigits 2 0 s;
  s ← readChar "." s;
  '(ms, s) ← readDigits 3 0 s;
  s ← readChar "Z" s;
  if String.eqb s ""
     && (1 <=? m) && (m <=? 12) && (1 <=? d) && (d <=? daysInMonth y m)
     && (hh <=? 23) && (mm <=? 59) && (ss <=? 59)
  then Some (daysFromCivil y m d * msPerDay
             + hh * 3600000 + mm * 60000 + ss * 1000 + ms)
  else None.

End Date.

(** * lambda/sample-lambda-1/index.js *)

Module SampleLambda1.

(** The object the handler returns. *)
Record Response :=
  { statusCode : Z;
    headers : gmap string string;
    body : option string }.

(** [exports.handler], run at the time value [now] ([new Date()]) on
    [event]: the lines written to the console, and the response the promise
    resolves with or the error it rejects with. *)
Definition handler (now : Z) (event : JS.value)
  : list string * result Response :=
  let console :=
    ["Event: " +:+ JS.shown (JS.JSON_stringify event 2)] in
  match JS.get event "requestContext" with
  | Err e => (console, Err e)
  | Ok requestContext =>
      let response :=
        {| statusCode := 200;
           headers :=
             {[ "Content-Type" := "application/json";
                "Access-Control-Allow-Origin" := "*";
                "Access-Control-Allow-Headers" := "Content-Type";
                "Access-Control-Allow-Methods" := "OPTIONS,POST,GET" ]};
           body :=
             JS.JSON_stringify
               (JS.object
                  [ ("message", JS.str "Hello from sample-lambda-1!");
                    ("timestamp", JS.str (Date.toISOString now));
                    ("requestId",
                     JS.or (JS.getOptional requestContext "requestId")
                           (JS.str "unknown")) ])
               0 |} in
      (console, Ok response)
  end.

End SampleLambda1.

(** * web/index.html *)

Module DemoPage.

(** An error object, as far as the page reads it. *)
Record Error := { message : string }.

(** How [fetch(endpoint)] and then [response.json()] settle: the fetch
    rejects, or it resolves with a response of some status whose body either
    fails to decode as JSON or decodes to a value. *)
Inductive Fetched :=
| rejected (error : Error)
| resolved (status : Z) (json : Error + JS.value).

(** What a run leaves behind: the content of the [result] element and the
    fetches performed, oldest first. *)
Record Page := { innerHTML : string; fetches : list string }.

Definition checkMark : string :=
  String (ascii_of_nat 226) (String (ascii_of_nat 156)
    (String (ascii_of_nat 133) "")).
Definition crossMark : string :=
  String (ascii_of_nat 226) (String (ascii_of_nat 157)
    (String (ascii_of_nat 140) "")).

Definition successHTML (lambdaName : string) (data : JS.value) : string :=
  JS.newline +:+ "                    <h3>" +:+ checkMark +:+ " "
  +:+ lambdaName +:+ " Response Success!</h3>"
  +:+ JS.newline +:+ "                    <pre>"
  +:+ JS.shown (JS.JSON_stringify data 2) +:+ "</pre>"
  +:+ JS.newline +:+ "                ".

Definition failureHTML (lambdaName : string) (error : Error) : string :=
  JS.newline +:+ "                    <h3>" +:+ crossMark +:+ " "
  +:+ lambdaName +:+ " Call Failed</h3>"
  +:+ JS.newline +:+ "                    <p>Error: "
  +:+ message error +:+ "</p>"
  +:+ JS.newline +:+ "                ".

(** [testApi(endpoint, lambdaName)] run to completion from [page], the
    network answering a fetch of a path as [network] says. *)
Definition testApi (network : string -> Fetched)
    (endpoint lambdaName : string) (page : Page) : Page :=
  let page :=
    {| innerHTML := "Calling " +:+ lambdaName +:+ "...";
       fetches := fetches page |} in
  (* try *)
  let page :=
    {| innerHTML := innerHTML page;
       fetches := fetches page ++ [endpoint] |} in
  match network endpoint with
  | resolved _ (inr data) =>
      {| innerHTML := successHTML lambdaName data;
         fetches := fetches page |}
  (* catch (error) *)
  | rejected error | resolved _ (inl error) =>
      {| innerHTML := failureHTML lambdaName error;
         fetches := fetches page |}
  end.

Definition testLambda1 (network : string -> Fetched) (page : Page) : Page :=
  testApi network "/api/lambda-1" "Lambda 1" page.

Definition testLambda2 (network : string -> Fetched) (page : Page) : Page :=
  testApi network "/api/lambda-2" "Lambda 2" page.

(** [sub] occurs in [s]. *)
Definition occursIn (sub s : string) : Prop :=
  exists before after, s = before +:+ sub +:+ after.

End DemoPage.

(** *** The functions of a stack *)


(** * Properties of the stacks *)

(** Runs a stack constructor once and supplies the stack it returns. *)
Ltac run_constructor c :=
  let r := eval cbv beta iota zeta delta
    [new_WafStack new_BackendStack new_FrontendStack
     new_CdkServerlessWebAppPatternStack declareWebACL newStack self construct
     new_CfnWebACL new_Function new_RestApi addResource addMethod new_Bucket
     new_Distribution new_BucketDeployment new_CfnOutput
     mbind mret ctor_bind ctor_ret addChild tryFindChild replaceChild
     children kind ref_path ref_stack stack_path tree
     apigateway.root apigateway.res_ref apigateway.ref
     app String.eqb Ascii.eqb Bool.eqb] in c in
  lazymatch r with
  | Ok ?v => exists v
  end.

Section Stacks.
Variables (scope : Path) (id : string).

Lemma pathMatches_api_prefix (rest : string) :
  pathMatches "/api/*" ("/api/" +:+ rest) = true.
Proof.
  cbn. induction rest as [|c rest IH]; [reflexivity|].
  cbn. exact IH.
Qed.

(** C4: the WAF stack declares exactly one web ACL; its default action is
    allow; its rule list is one rate-based rule with limit 2000 aggregated
    by IP, action block and priority 1; rule names and priorities are
    pairwise distinct. *)
Theorem WafStack_filter_policy (props : option cdk.StackProps) :
  exists w,
    new_WafStack scope id props = Ok w
    /\ webAcls (WafStack_node w) = [wafv2.props (webAcl w)]
    /\ wafv2.defaultAction (wafv2.props (webAcl w)) = wafv2.allow
    /\ (exists r,
          wafv2.rules (wafv2.props (webAcl w)) = [r]
          /\ wafv2.statement r =
               {| wafv2.rateBasedStatement :=
                    {| wafv2.limit := 2000;
                       wafv2.aggregateKeyType := "IP" |} |}
          /\ wafv2.action r = wafv2.block
          /\ wafv2.priority r = 1)
    /\ NoDup (wafv2.name <$> wafv2.rules (wafv2.props (webAcl w)))
    /\ NoDup (wafv2.priority <$> wafv2.rules (wafv2.props (webAcl w))).
Proof.
  run_constructor (new_WafStack scope id props).
  split; [reflexivity|]. cbn.
  repeat split.
  - eexists. repeat split.
  - apply NoDup_singleton.
  - apply NoDup_singleton.
Qed.

(** C6: the bucket of the frontend stack is private (public read access
    off, all public access blocked), its index document is index.html and
    its removal policy is destroy. *)
Theorem FrontendStack_bucket_private (props : FrontendStackProps) :
  exists fs,
    new_FrontendStack scope id props = Ok fs
    /\ buckets (FrontendStack_node fs) = [s3.props (bucket fs)]
    /\ s3.publicReadAccess (s3.props (bucket fs)) = false
    /\ s3.blockPublicAccess (s3.props (bucket fs)) = s3.BLOCK_ALL
    /\ s3.websiteIndexDocument (s3.props (bucket fs)) = "index.html"
    /\ s3.removalPolicy (s3.props (bucket fs)) = cdk.DESTROY.
Proof.
  run_constructor (new_FrontendStack scope id props).
  split; [reflexivity|]. cbn. repeat split.
Qed.

(** C9: the deprecated stack is a no-op: its construction succeeds and
    declares no resource at all, so none of the web ACL, functions, api,
    bucket, distribution, deployment or output of the other stacks. *)
Theorem CdkServerlessWebAppPatternStack_empty (props : option cdk.StackProps) :
  exists s,
    new_CdkServerlessWebAppPatternStack scope id props = Ok s
    /\ CdkServerlessWebAppPatternStack_node s = Node (KStack props) []
    /\ resources (CdkServerlessWebAppPatternStack_node s) = [].
Proof.
  run_constructor (new_CdkServerlessWebAppPatternStack scope id props).
  split; [reflexivity|]. split; reflexivity.
Qed.



(** C1: the distribution of the frontend stack has one default behavior
    (path pattern [*]) that reads the stack's bucket through origin access
    control and redirects to HTTPS, and exactly one additional behavior,
    for [/api/*], that forwards to the REST api it was given, redirects to
    HTTPS and has caching disabled; its web ACL is the ARN of the web ACL it
    was given.  So a request below [/api/] is served by a behavior that
    never caches and a request for [/] by one that may. *)
Theorem FrontendStack_distribution_behaviors (props : FrontendStackProps) :
  exists fs,
    new_FrontendStack scope id props = Ok fs
    /\ buckets (FrontendStack_node fs) = [s3.props (bucket fs)]
    /\ distributions (FrontendStack_node fs)
       = [cloudfront.props (distribution fs)]
    /\ (let d := cloudfront.props (distribution fs) in
        let default :=
          {| cloudfront.origin :=
               origins.S3BucketOrigin_withOriginAccessControl (bucket fs);
             cloudfront.viewerProtocolPolicy := cloudfront.REDIRECT_TO_HTTPS;
             cloudfront.cachePolicy := None |} in
        let api :=
          {| cloudfront.origin :=
               origins.RestApiOrigin (props_apiGateway props);
             cloudfront.viewerProtocolPolicy := cloudfront.REDIRECT_TO_HTTPS;
             cloudfront.cachePolicy := Some cloudfront.CACHING_DISABLED |} in
        cloudfront.defaultBehavior d = default
        /\ cloudfront.additionalBehaviors d = {[ "/api/*" := api ]}
        /\ behaviors d = [("/api/*", api); ("*", default)]
        /\ cloudfront.webAclId d
           = GetAtt (wafv2.ref (props_webAcl props)) "Arn"
        /\ (forall rest,
              behaviorFor d ("/api/" +:+ rest) = api
              /\ mayCache (behaviorFor d ("/api/" +:+ rest)) = false)
        /\ behaviorFor d "/" = default
        /\ mayCache (behaviorFor d "/") = true).
Proof.
  run_constructor (new_FrontendStack scope id props).
  split; [reflexivity|].
  split; [reflexivity|]. split; [reflexivity|].
  cbn zeta. cbn [distribution bucket cloudfront.props].
  split; [reflexivity|]. split; [reflexivity|].
  assert (Hbs : forall d0 a, behaviors
            {| cloudfront.defaultBehavior := d0;
               cloudfront.additionalBehaviors := {[ "/api/*" := a ]};
               cloudfront.defaultRootObject := "index.html";
               cloudfront.webAclId := wafv2.attrArn (props_webAcl props) |}
          = [("/api/*", a); ("*", d0)]).
  { intros d0 a. unfold behaviors. cbn [cloudfront.additionalBehaviors
      cloudfront.defaultBehavior]. rewrite map_to_list_singleton.
    reflexivity. }
  split; [apply Hbs|]. split; [reflexivity|].
  split; [|split; reflexivity].
  intros rest.
  assert (Hb : forall d0 a, behaviorFor
            {| cloudfront.defaultBehavior := d0;
               cloudfront.additionalBehaviors := {[ "/api/*" := a ]};
               cloudfront.defaultRootObject := "index.html";
               cloudfront.webAclId := wafv2.attrArn (props_webAcl props) |}
            ("/api/" +:+ rest) = a).
  { intros d0 a. unfold behaviorFor. rewrite Hbs. cbn [List.find fst].
    rewrite pathMatches_api_prefix. reflexivity. }
  rewrite Hb. split; reflexivity.
Qed.


(** C10: the bucket names error.html as its website error document, while
    the one deployment into that bucket uploads only index.html: the error
    document is not among the published files. *)
Theorem FrontendStack_error_document_not_published
    (props : FrontendStackProps) :
  exists fs deployment,
    new_FrontendStack scope id props = Ok fs
    /\ s3.websiteErrorDocument (s3.props (bucket fs)) = "error.html"
    /\ bucketDeployments (FrontendStack_node fs) = [deployment]
    /\ s3deploy.destinationBucket deployment = bucket fs
    /\ publishedFiles deployment = ["index.html"]
    /\ s3.websiteErrorDocument (s3.props (bucket fs))
       ∉ publishedFiles deployment.
Proof.
  run_constructor (new_FrontendStack scope id props).
  eexists. split; [reflexivity|].
  do 4 (split; [reflexivity|]).
  cbn. rewrite list_elem_of_singleton. discriminate.
Qed.



(** X12: the app wires the stacks by passing the web ACL of the WAF stack and
    the api of the backend stack to the frontend stack: the distribution then
    refers to the web ACL construct of the WAF stack, by the token of its
    ARN, and forwards [/api/*] to the api construct of the backend stack. *)
Lemma FrontendStack_wired_to_the_other_stacks
    (scopeW scopeB : Path) (idW idB : string)
    (propsW propsB : option cdk.StackProps) (stackProps : cdk.StackProps) :
  exists w b fs,
    new_WafStack scopeW idW propsW = Ok w
    /\ new_BackendStack scopeB idB propsB = Ok b
    /\ new_FrontendStack scope id
         {| stackProps := stackProps;
            props_apiGateway := apiGateway b;
            props_webAcl := webAcl w |} = Ok fs
    /\ wafv2.ref (webAcl w)
       = {| ref_stack := scopeW ++ [idW]; ref_path := ["WebACL"] |}
    /\ apigateway.ref (apiGateway b)
       = {| ref_stack := scopeB ++ [idB]; ref_path := ["Api"] |}
    /\ cloudfront.webAclId (cloudfront.props (distribution fs))
       = GetAtt (wafv2.ref (webAcl w)) "Arn"
    /\ cloudfront.origin
         <$> cloudfront.additionalBehaviors (cloudfront.props (distribution fs))
             !! "/api/*"
       = Some (origins.RestApiOrigin (apiGateway b)).
Proof.
  run_constructor (new_WafStack scopeW idW propsW).
  run_constructor (new_BackendStack scopeB idB propsB).
  match goal with
  | |- ex (fun fs => _ /\ _ /\ ?c = Ok fs /\ _) => run_constructor c
  end.
  do 6 (split; [reflexivity|]).
  cbn [distribution cloudfront.props cloudfront.additionalBehaviors].
  rewrite lookup_singleton_eq. reflexivity.
Qed.

(** Declaring the same method twice on a resource, or the same resource twice
    under a parent, throws while the graph is constructed. *)
Lemma addChild_taken (name : string) (c c' : Construct) (t : Construct) :
  tryFindChild name (children t) = Some c ->
  is_ok (addChild [] name c' t) = false.
Proof. intros Htaken. cbn [addChild]. rewrite Htaken. reflexivity. Qed.

Example duplicate_method_throws (i : apigateway.Integration)
    (p : apigateway.RestApiProps) :
  is_ok (newStack scope id None
           (this ← self;
            api ← new_RestApi this "Api" p;
            resource ← addResource (apigateway.root api) "api";
            _ ← addMethod resource "GET" i;
            addMethod resource "GET" i)) = false.
Proof. reflexivity. Qed.
End Stacks.

(** * Properties of strings *)

Lemma append_cons (c : ascii) (s rest : string) :
  String c s +:+ rest = String c (s +:+ rest).
Proof. reflexivity. Qed.

Lemma append_nil (rest : string) : "" +:+ rest = rest.
Proof. reflexivity. Qed.

Lemma append_assoc (a b c : string) : (a +:+ b) +:+ c = a +:+ (b +:+ c).
Proof.
  induction a as [|x a IH]; [reflexivity|].
  rewrite !append_cons, IH. reflexivity.
Qed.

(** * Properties of dates and their text *)

(** Decides the tests of the goal that have no variable in them. *)
Ltac closed_tests :=
  repeat match goal with
         | |- context [if ?b then ?x else ?y] =>
             let v := eval vm_compute in b in
             match v with
             | true => change (if b then x else y) with x
             | false => change (if b then x else y) with y
             end
         end.

Section DateFacts.
Import Date.

Lemma isLeapYear_era (y k : Z) : isLeapYear (y + k * 400) = isLeapYear y.
Proof.
  unfold isLeapYear.
  replace ((y + k * 400) mod 4) with (y mod 4)
    by (Z.div_mod_to_equations; lia).
  replace ((y + k * 400) mod 100) with (y mod 100)
    by (Z.div_mod_to_equations; lia).
  replace ((y + k * 400) mod 400) with (y mod 400)
    by (Z.div_mod_to_equations; lia).
  reflexivity.
Qed.

Lemma daysInMonth_era (y k m : Z) :
  daysInMonth (y + k * 400) m = daysInMonth y m.
Proof. unfold daysInMonth. rewrite isLeapYear_era. reflexivity. Qed.

(** Within an era, the day number determines a valid date and is
    recovered from it. *)
Lemma civilOfEraDay_spec (doe : Z) :
  0 <= doe < 146097 ->
  let '(yoe, m, d) := civilOfEraDay doe in
  0 <= yoe <= 399 /\ 1 <= m <= 12 /\ 1 <= d
  /\ d <= daysInMonth (yoe + (if m <=? 2 then 1 else 0)) m
  /\ eraDayOfCivil yoe m d = doe.
Proof.
  intros H. unfold civilOfEraDay.
  set (yoe := (doe - doe / 1460 + doe / 36524 - doe / 146096) / 365).
  set (doy := doe - (365 * yoe + yoe / 4 - yoe / 100)).
  set (mp := (5 * doy + 2) / 153).
  assert (Hy : 0 <= yoe <= 399 /\ 0 <= doy <= 365
               /\ (doy = 365 ->
                   (yoe + 1) mod 4 = 0
                   /\ ((yoe + 1) mod 100 <> 0 \/ (yoe + 1) mod 400 = 0)))
    by (subst yoe doy; Z.div_mod_to_equations; lia).
  destruct Hy as (Hyoe & Hdoy & Hleap).
  assert (Hdoe : doe = 365 * yoe + yoe / 4 - yoe / 100 + doy)
    by (subst doy; lia).
  assert (Hmp : 153 * mp <= 5 * doy + 2 < 153 * mp + 153)
    by (subst mp; Z.div_mod_to_equations; lia).
  clearbody mp doy. clearbody yoe.
  assert (Hcases : mp = 0 \/ mp = 1 \/ mp = 2 \/ mp = 3 \/ mp = 4 \/ mp = 5
                   \/ mp = 6 \/ mp = 7 \/ mp = 8 \/ mp = 9 \/ mp = 10
                   \/ mp = 11) by lia.
  unfold eraDayOfCivil, daysInMonth, isLeapYear.
  do 11 (destruct Hcases as [-> | Hcases];
         [closed_tests; Z.div_mod_to_equations; lia|]).
  subst mp. closed_tests.
  repeat match goal with
         | |- context [?a =? ?b] => destruct (Z.eqb_spec a b)
         end;
    cbn [orb andb negb]; Z.div_mod_to_equations; lia.
Qed.

(** A day number determines a valid date and is recovered from it. *)
Lemma civilFromDays_spec (day : Z) :
  let '(y, m, d) := civilFromDays day in
  1 <= m <= 12 /\ 1 <= d <= daysInMonth y m
  /\ daysFromCivil y m d = day
  /\ (day + 719468) / 146097 * 400 <= y <= (day + 719468) / 146097 * 400 + 400.
Proof.
  unfold civilFromDays.
  set (z := day + 719468).
  pose proof (civilOfEraDay_spec (z mod 146097)) as Hera.
  destruct (civilOfEraDay (z mod 146097)) as [[yoe m] d].
  destruct Hera as (Hyoe & Hm & Hd1 & Hd2 & Hback);
    [apply Z.mod_pos_bound; lia|].
  set (carry := if m <=? 2 then 1 else 0) in *.
  assert (Hcarry : 0 <= carry <= 1)
    by (subst carry; destruct (m <=? 2); lia).
  split; [exact Hm|]. split; [split; [exact Hd1|]|split].
  - replace (yoe + z / 146097 * 400 + carry)
      with (yoe + carry + z / 146097 * 400) by lia.
    rewrite daysInMonth_era. exact Hd2.
  - unfold daysFromCivil. fold carry.
    replace (yoe + z / 146097 * 400 + carry - carry)
      with (yoe + z / 146097 * 400) by lia.
    replace ((yoe + z / 146097 * 400) / 400) with (z / 146097)
      by (Z.div_mod_to_equations; lia).
    replace ((yoe + z / 146097 * 400) mod 400) with yoe
      by (Z.div_mod_to_equations; lia).
    rewrite Hback. subst z. Z.div_mod_to_equations; lia.
  - lia.
Qed.


(** Steps the parser over the separator that follows a field just read. *)
Ltac next_field :=
  cbn [mbind option_bind];
  rewrite ?append_cons, ?append_nil;
  cbn [mbind option_bind readChar Ascii.eqb Bool.eqb].

Lemma digitValue_digitChar (d : Z) :
  0 <= d <= 9 -> digitValue (digitChar d) = Some d.
Proof.
  intros H.
  assert (Hd : d = 0 \/ d = 1 \/ d = 2 \/ d = 3 \/ d = 4 \/ d = 5 \/ d = 6
               \/ d = 7 \/ d = 8 \/ d = 9) by lia.
  repeat (destruct Hd as [-> | Hd]; [reflexivity|]). subst d. reflexivity.
Qed.

Lemma digitChar_not_sign (d : Z) :
  0 <= d <= 9 ->
  Ascii.eqb (digitChar d) "+" = false /\ Ascii.eqb (digitChar d) "-" = false.
Proof.
  intros H.
  assert (Hd : d = 0 \/ d = 1 \/ d = 2 \/ d = 3 \/ d = 4 \/ d = 5 \/ d = 6
               \/ d = 7 \/ d = 8 \/ d = 9) by lia.
  repeat (destruct Hd as [-> | Hd]; [split; reflexivity|]).
  subst d. split; reflexivity.
Qed.

(** Reading back a fixed-width field gives the number written. *)
Lemma readDigits_digits (w : nat) :
  forall (n acc : Z) (rest : string),
    0 <= n < 10 ^ Z.of_nat w ->
    readDigits w acc (digits w n +:+ rest)
    = Some (acc * 10 ^ Z.of_nat w + n, rest).
Proof.
  induction w as [|w IH]; intros n acc rest Hn.
  - cbn. f_equal. f_equal. cbn in Hn. lia.
  - rewrite Nat2Z.inj_succ, Z.pow_succ_r in * by lia.
    assert (Hpos : 0 < 10 ^ Z.of_nat w) by (apply Z.pow_pos_nonneg; lia).
    cbn [digits]. rewrite append_cons. cbn [readDigits].
    rewrite digitValue_digitChar by (Z.div_mod_to_equations; nia).
    rewrite IH by (apply Z.mod_pos_bound; lia).
    f_equal. f_equal.
    pose proof (Z.div_mod n (10 ^ Z.of_nat w)). nia.
Qed.

Lemma readDigits_first (w : nat) (n : Z) (rest : string) :
  0 <= n < 10 ^ Z.of_nat w ->
  readDigits w 0 (digits w n +:+ rest) = Some (n, rest).
Proof. intros Hn. rewrite readDigits_digits by exact Hn. reflexivity. Qed.

Lemma readYear_yearText (y : Z) (rest : string) :
  -999999 <= y <= 999999 ->
  readYear (yearText y +:+ rest) = Some (y, rest).
Proof.
  intros Hy. unfold yearText.
  destruct (Z.leb_spec 0 y) as [H0|H0];
    [destruct (Z.leb_spec y 9999) as [H1|H1]|]; cbn [andb].
  - change (digits 4 y)
      with (String (digitChar (y / 10 ^ 3)) (digits 3 (y mod 10 ^ 3))).
    rewrite append_cons. cbn [readYear].
    destruct (digitChar_not_sign (y / 10 ^ 3)) as [-> ->];
      [Z.div_mod_to_equations; lia|].
    rewrite <- append_cons.
    change (String (digitChar (y / 10 ^ 3)) (digits 3 (y mod 10 ^ 3)))
      with (digits 4 y).
    rewrite readDigits_first by (change (10 ^ Z.of_nat 4) with 10000; lia).
    f_equal.
  - destruct (Z.ltb_spec y 0); [lia|].
    rewrite !append_cons, append_nil. cbn [readYear Ascii.eqb Bool.eqb].
    rewrite readDigits_first
      by (change (10 ^ Z.of_nat 6) with 1000000; lia).
    f_equal. f_equal. lia.
  - destruct (Z.ltb_spec y 0); [|lia].
    rewrite !append_cons, append_nil. cbn [readYear Ascii.eqb Bool.eqb].
    rewrite readDigits_first
      by (change (10 ^ Z.of_nat 6) with 1000000; lia).
    destruct (Z.eqb_spec (Z.abs y) 0); [lia|].
    f_equal. f_equal. lia.
Qed.

(** The text [toISOString] writes for a time value reads back as that
    time value. *)
Lemma parseISOString_toISOString (t : Z) :
  - maxTime <= t <= maxTime ->
  parseISOString (toISOString t) = Some t.
Proof.
  unfold maxTime. intros Ht. unfold toISOString.
  pose proof (civilFromDays_spec (t / msPerDay)) as Hcivil.
  destruct (civilFromDays (t / msPerDay)) as [[y m] d].
  destruct Hcivil as (Hm & Hd & Hdays & Hy).
  set (msInDay := t mod msPerDay).
  assert (Hms : 0 <= msInDay < 86400000)
    by (subst msInDay; apply Z.mod_pos_bound; reflexivity).
  assert (Ht' : t = (t / msPerDay) * 86400000 + msInDay)
    by (subst msInDay; unfold msPerDay; Z.div_mod_to_equations; lia).
  assert (Hyear : -999999 <= y <= 999999)
    by (unfold msPerDay in *; Z.div_mod_to_equations; lia).
  unfold parseISOString.
  rewrite readYear_yearText by exact Hyear.
  next_field.
  rewrite readDigits_first by (change (10 ^ Z.of_nat 2) with 100; lia).
  next_field.
  rewrite readDigits_first
    by (change (10 ^ Z.of_nat 2) with 100;
        unfold daysInMonth in Hd;
        repeat match type of Hd with
               | context [if ?b then _ else _] => destruct b
               end; lia).
  next_field.
  rewrite readDigits_first
    by (change (10 ^ Z.of_nat 2) with 100; Z.div_mod_to_equations; lia).
  next_field.
  rewrite readDigits_first
    by (change (10 ^ Z.of_nat 2) with 100; Z.div_mod_to_equations; lia).
  next_field.
  rewrite readDigits_first
    by (change (10 ^ Z.of_nat 2) with 100; Z.div_mod_to_equations; lia).
  next_field.
  rewrite readDigits_first
    by (change (10 ^ Z.of_nat 3) with 1000; Z.div_mod_to_equations; lia).
  next_field. cbn [String.eqb andb].
  repeat match goal with
         | |- context [?a <=? ?b] =>
             destruct (Z.leb_spec a b);
             [|exfalso; Z.div_mod_to_equations; lia]
         end.
  cbn [andb]. f_equal. rewrite Hdays. unfold msPerDay.
  Z.div_mod_to_equations; lia.
Qed.
End DateFacts.

(** * Properties of the handler *)

Section SampleLambda1Facts.
Import JS SampleLambda1.



(** The response to a request as API Gateway hands it over, and to an
    event without a request context. *)
Example handler_on_gateway_event :
  (handler 1700000000000
     (object [("requestContext",
               object [("requestId", str "c6af9ac6-7b61-11e6")])])).2
  = Ok {| statusCode := 200;
          headers :=
            {[ "Content-Type" := "application/json";
               "Access-Control-Allow-Origin" := "*";
               "Access-Control-Allow-Headers" := "Content-Type";
               "Access-Control-Allow-Methods" := "OPTIONS,POST,GET" ]};
          body :=
            Some ("{" +:+ quote "message" +:+ ":"
                  +:+ quote "Hello from sample-lambda-1!" +:+ ","
                  +:+ quote "timestamp" +:+ ":"
                  +:+ quote "2023-11-14T22:13:20.000Z" +:+ ","
                  +:+ quote "requestId" +:+ ":"
                  +:+ quote "c6af9ac6-7b61-11e6" +:+ "}") |}.
Proof. reflexivity. Qed.

Example handler_without_context :
  match (handler 1700000000000 (object [])).2 with
  | Ok response =>
      body response
      = Some ("{" +:+ quote "message" +:+ ":"
              +:+ quote "Hello from sample-lambda-1!" +:+ ","
              +:+ quote "timestamp" +:+ ":"
              +:+ quote "2023-11-14T22:13:20.000Z" +:+ ","
              +:+ quote "requestId" +:+ ":" +:+ quote "unknown" +:+ "}")
  | Err _ => False
  end.
Proof. reflexivity. Qed.

(** An event that is [null] (a direct invocation with an empty payload, not
    a request through the gateway) makes the handler reject. *)
Example handler_on_null_event :
  is_ok (handler 1700000000000 null).2 = false.
Proof. reflexivity. Qed.
End SampleLambda1Facts.

(** * Properties of the demo page *)

Section DemoPageFacts.
Import DemoPage.




(** A response that arrives and decodes is shown in the [Response Success]
    block whatever its status, also the gateway's answer to a failed
    invocation. *)
Example testApi_error_status_shown_as_response :
  innerHTML
    (testLambda1
       (fun _ => resolved 502
          (inr (JS.object [("message", JS.str "Internal server error")])))
       {| innerHTML := ""; fetches := [] |})
  = successHTML "Lambda 1"
      (JS.object [("message", JS.str "Internal server error")]).
Proof. reflexivity. Qed.
End DemoPageFacts.

(** * Further properties of the demo page *)

Section DemoPageRuns.
Import DemoPage.

(** X1: a response that arrives and decodes is shown in the [Response
    Success] block with the decoded value pretty-printed, whatever its
    status: the page never looks at the status. *)
Theorem testApi_response_displayed (network : string -> Fetched)
    (endpoint lambdaName : string) (page : Page) (status : Z)
    (data : JS.value) :
  network endpoint = resolved status (inr data) ->
  let page' := testApi network endpoint lambdaName page in
  innerHTML page' = successHTML lambdaName data
  /\ occursIn (lambdaName +:+ " Response Success!") (innerHTML page')
  /\ occursIn ("<pre>" +:+ JS.shown (JS.JSON_stringify data 2) +:+ "</pre>")
              (innerHTML page')
  /\ fetches page' = fetches page ++ [endpoint].
Proof.
  intros Hresolved page'.
  assert (Hshown : innerHTML page' = successHTML lambdaName data)
    by (subst page'; unfold testApi; rewrite Hresolved; reflexivity).
  split; [exact Hshown|]. rewrite Hshown.
  split; [|split].
  - exists (JS.newline +:+ "                    <h3>" +:+ checkMark +:+ " "),
           ("</h3>" +:+ JS.newline +:+ "                    <pre>"
            +:+ JS.shown (JS.JSON_stringify data 2) +:+ "</pre>"
            +:+ JS.newline +:+ "                ").
    unfold successHTML. rewrite !append_assoc. reflexivity.
  - exists (JS.newline +:+ "                    <h3>" +:+ checkMark +:+ " "
            +:+ lambdaName +:+ " Response Success!</h3>"
            +:+ JS.newline +:+ "                    "),
           (JS.newline +:+ "                ").
    unfold successHTML. rewrite !append_assoc. reflexivity.
  - subst page'. unfold testApi. rewrite Hresolved. reflexivity.
Qed.

Lemma testApi_response_displayed_witness :
  let page' :=
    testLambda2
      (fun _ => resolved 500 (inr (JS.object [("message", JS.str "boom")])))
      {| innerHTML := ""; fetches := [] |} in
  occursIn "Lambda 2 Response Success!" (innerHTML page')
  /\ fetches page' = ["/api/lambda-2"].
Proof.
  destruct (testApi_response_displayed
              (fun _ => resolved 500
                          (inr (JS.object [("message", JS.str "boom")])))
              "/api/lambda-2" "Lambda 2"
              {| innerHTML := ""; fetches := [] |} 500
              (JS.object [("message", JS.str "boom")]))
    as (_ & Hheading & _ & Hfetches); [reflexivity|].
  split; [exact Hheading|exact Hfetches].
Defined.

Lemma fetches_of_both_buttons (network : string -> Fetched) (page : Page) :
  fetches (testLambda2 network (testLambda1 network page))
  = fetches page ++ ["/api/lambda-1"; "/api/lambda-2"].
Proof.
  unfold testLambda1, testLambda2, testApi.
  destruct (network "/api/lambda-1") as [e1|s1 [e1|d1]];
    destruct (network "/api/lambda-2") as [e2|s2 [e2|d2]];
    cbn [fetches]; rewrite <- (assoc_L (++)); reflexivity.
Qed.

(** X2: the two buttons one after the other: each fetches its own path, the
    fetches add up in the order of the clicks, and what the page shows after
    the second run is what that run alone would show, whatever the first one
    left. *)
Theorem testLambda1_then_testLambda2 (network : string -> Fetched)
    (page : Page) :
  let page' := testLambda2 network (testLambda1 network page) in
  fetches page' = fetches page ++ ["/api/lambda-1"; "/api/lambda-2"]
  /\ innerHTML page' = innerHTML (testLambda2 network page)
  /\ fetches (testLambda1 network page) = fetches page ++ ["/api/lambda-1"]
  /\ fetches (testLambda2 network page) = fetches page ++ ["/api/lambda-2"].
Proof.
  cbn zeta. split; [apply fetches_of_both_buttons|].
  unfold testLambda1, testLambda2, testApi.
  destruct (network "/api/lambda-1") as [e1|s1 [e1|d1]];
    destruct (network "/api/lambda-2") as [e2|s2 [e2|d2]];
    cbn [fetches innerHTML]; repeat split.
Qed.

Lemma first_character_differs (c c' : ascii) (s s' : string) :
  c <> c' -> String c s <> String c' s'.
Proof. intros Hne Hsame. injection Hsame as Hc _. exact (Hne Hc). Qed.

(** X3: a run never leaves the [Calling ...] placeholder behind: it ends
    showing either the success block or the failure block, and neither is
    the placeholder. *)
Theorem testApi_settles (network : string -> Fetched)
    (endpoint lambdaName : string) (page : Page) :
  let page' := testApi network endpoint lambdaName page in
  ((exists data, innerHTML page' = successHTML lambdaName data)
   \/ (exists error, innerHTML page' = failureHTML lambdaName error))
  /\ innerHTML page' <> "Calling " +:+ lambdaName +:+ "...".
Proof.
  cbn zeta. unfold testApi.
  destruct (network endpoint) as [error|status [error|data]];
    cbn [innerHTML].
  - split; [right; exists error; reflexivity|].
    apply (first_character_differs (ascii_of_nat 10) "C").
    intros Hsame; discriminate Hsame.
  - split; [right; exists error; reflexivity|].
    apply (first_character_differs (ascii_of_nat 10) "C").
    intros Hsame; discriminate Hsame.
  - split; [left; exists data; reflexivity|].
    apply (first_character_differs (ascii_of_nat 10) "C").
    intros Hsame; discriminate Hsame.
Qed.
End DemoPageRuns.

(** * Further properties of the handler *)

Section SampleLambda1Events.
Import JS SampleLambda1.

(** X4: the handler rejects exactly on the events [undefined] and [null],
    where reading [event.requestContext] throws; the event has been logged by
    then. *)
Theorem handler_rejects_iff_nullish (now : Z) (event : value) :
  (is_ok (handler now event).2 = false <-> event = undefined \/ event = null)
  /\ (event = undefined -> (handler now event).1 = ["Event: undefined"])
  /\ (event = null -> (handler now event).1 = ["Event: null"]).
Proof.
  split; [split|split].
  - destruct event; cbn; intros H; try discriminate H; auto.
  - intros [-> | ->]; reflexivity.
  - intros ->. reflexivity.
  - intros ->. reflexivity.
Qed.



End SampleLambda1Events.

(** * Further properties of timestamps *)

Section Timestamps.
Import Date.

Lemma length_append (a b : string) :
  String.length (a +:+ b) = (String.length a + String.length b)%nat.
Proof.
  induction a as [|c a IH]; [reflexivity|].
  rewrite append_cons. cbn [String.length]. rewrite IH. reflexivity.
Qed.

Lemma length_digits (w : nat) (n : Z) : String.length (digits w n) = w.
Proof.
  revert n. induction w as [|w IH]; intros n; [reflexivity|].
  cbn [digits String.length]. rewrite IH. reflexivity.
Qed.

(** The year of a day between 0000-01-01 and 9999-12-31 has four digits. *)
Lemma civilFromDays_four_digit_year (day : Z) :
  -719528 <= day <= 2932896 ->
  0 <= (civilFromDays day).1.1 <= 9999.
Proof.
  intros Hday.
  pose proof (civilFromDays_spec day) as Hspec.
  destruct (civilFromDays day) as [[y m] d]. cbn [fst].
  destruct Hspec as (Hm & Hd & Hback & _).
  assert (Hd31 : d <= 31).
  { unfold daysInMonth in Hd.
    repeat match type of Hd with
           | context [if ?b then _ else _] => destruct b
           end; lia. }
  unfold daysFromCivil, eraDayOfCivil in Hback.
  destruct (Z.leb_spec m 2); destruct (Z.ltb_spec 2 m); try lia;
    Z.div_mod_to_equations; lia.
Qed.

(** X7: for a time from year 0000 to year 9999 the timestamp has exactly 24
    characters. *)
Theorem toISOString_length (t : Z) :
  -62167219200000 <= t <= 253402300799999 ->
  String.length (toISOString t) = 24%nat.
Proof.
  intros Ht. unfold toISOString.
  pose proof (civilFromDays_four_digit_year (t / msPerDay)) as Hyear.
  destruct (civilFromDays (t / msPerDay)) as [[y m] d]. cbn [fst] in Hyear.
  assert (Hy : 0 <= y <= 9999)
    by (apply Hyear; unfold msPerDay; Z.div_mod_to_equations; lia).
  unfold yearText.
  destruct (Z.leb_spec 0 y); [|lia]. destruct (Z.leb_spec y 9999); [|lia].
  cbn [andb].
  rewrite !length_append, !length_digits. reflexivity.
Qed.

Lemma toISOString_length_witness :
  String.length (toISOString 1700000000000) = 24%nat.
Proof. apply toISOString_length. lia. Defined.

(** X6: two times of the Date range with the same timestamp are the same
    millisecond. *)
Theorem toISOString_injective (t t' : Z) :
  - maxTime <= t <= maxTime ->
  - maxTime <= t' <= maxTime ->
  toISOString t = toISOString t' ->
  t = t'.
Proof.
  intros Ht Ht' Hsame.
  assert (Hread : Some t = Some t').
  { rewrite <- (parseISOString_toISOString t Ht).
    rewrite <- (parseISOString_toISOString t' Ht').
    rewrite Hsame. reflexivity. }
  injection Hread as ->. reflexivity.
Qed.

Lemma toISOString_injective_witness : 1700000000000 = 1700000000000.
Proof.
  apply (toISOString_injective 1700000000000 1700000000000);
    [unfold maxTime; lia | unfold maxTime; lia | reflexivity].
Defined.
End Timestamps.

(** * Further properties of the stacks *)

Section StacksTogether.
Variables (scope : Path) (id : string).

(** A pattern that starts with an ordinary character matches only paths that
    start with that character. *)
Lemma pathMatches_literal (c : ascii) (pattern path : string) :
  c <> "*"%char -> c <> "?"%char ->
  pathMatches (String c pattern) path = true ->
  exists path', path = String c path' /\ pathMatches pattern path' = true.
Proof.
  intros Hstar Hany. cbn [pathMatches].
  destruct (Ascii.eqb_spec c "*"); [contradiction|].
  destruct path as [|d path']; [discriminate|].
  destruct (Ascii.eqb_spec c "?"); [contradiction|]. cbn [orb].
  destruct (Ascii.eqb_spec c d) as [<-|]; cbn [andb]; [|discriminate].
  intros Hrest. exists path'. split; [reflexivity|exact Hrest].
Qed.

Lemma pathMatches_api_only (path : string) :
  pathMatches "/api/*" path = true -> exists rest, path = "/api/" +:+ rest.
Proof.
  intros H.
  apply pathMatches_literal in H as (p1 & -> & H); [|discriminate..].
  apply pathMatches_literal in H as (p2 & -> & H); [|discriminate..].
  apply pathMatches_literal in H as (p3 & -> & H); [|discriminate..].
  apply pathMatches_literal in H as (p4 & -> & H); [|discriminate..].
  apply pathMatches_literal in H as (p5 & -> & H); [|discriminate..].
  exists p5. reflexivity.
Qed.

(** The behavior that serves a path: the one for [/api/*] if that pattern
    matches, the default one otherwise. *)
Lemma FrontendStack_behaviorFor (props : FrontendStackProps) :
  exists fs,
    new_FrontendStack scope id props = Ok fs
    /\ forall path,
         let served :=
           behaviorFor (cloudfront.props (distribution fs)) path in
         if pathMatches "/api/*" path
         then cloudfront.origin served
              = origins.RestApiOrigin (props_apiGateway props)
              /\ mayCache served = false
         else cloudfront.origin served
              = origins.S3BucketOrigin_withOriginAccessControl (bucket fs)
              /\ mayCache served = true.
Proof.
  run_constructor (new_FrontendStack scope id props).
  split; [reflexivity|]. intros path.
  cbn [distribution bucket cloudfront.props]. cbn zeta.
  unfold behaviorFor, behaviors.
  cbn [cloudfront.additionalBehaviors cloudfront.defaultBehavior].
  rewrite map_to_list_singleton. cbn [app List.find fst snd].
  destruct (pathMatches "/api/*" path) eqn:Hmatch; [split; reflexivity|].
  destruct (pathMatches "*" path); split; reflexivity.
Qed.

(** X8: the distribution forwards a request to the REST api exactly when its
    path starts with [/api/]; every other path, [/api] and [/index.html]
    among them, is served from the bucket by the default behavior, which may
    cache. *)
Theorem FrontendStack_routes_every_path (props : FrontendStackProps) :
  exists fs,
    new_FrontendStack scope id props = Ok fs
    /\ forall path,
         let served :=
           behaviorFor (cloudfront.props (distribution fs)) path in
         ((exists rest, path = "/api/" +:+ rest) ->
          cloudfront.origin served
          = origins.RestApiOrigin (props_apiGateway props)
          /\ mayCache served = false)
         /\ (~ (exists rest, path = "/api/" +:+ rest) ->
             cloudfront.origin served
             = origins.S3BucketOrigin_withOriginAccessControl (bucket fs)
             /\ mayCache served = true).
Proof.
  destruct (FrontendStack_behaviorFor props) as (fs & Hfs & Hserved).
  exists fs. split; [exact Hfs|]. intros path. cbn zeta.
  specialize (Hserved path). cbn zeta in Hserved.
  destruct (pathMatches "/api/*" path) eqn:Hmatch.
  - split; [intros _; exact Hserved|].
    intros Hnot. exfalso. apply Hnot. apply pathMatches_api_only, Hmatch.
  - split; [|intros _; exact Hserved].
    intros [rest ->]. rewrite pathMatches_api_prefix in Hmatch.
    discriminate Hmatch.
Qed.

(** X9: the index document of the bucket is the default root object of the
    distribution, and the deployment publishes it. *)
Theorem FrontendStack_index_document_published (props : FrontendStackProps) :
  exists fs deployment,
    new_FrontendStack scope id props = Ok fs
    /\ bucketDeployments (FrontendStack_node fs) = [deployment]
    /\ s3deploy.destinationBucket deployment = bucket fs
    /\ cloudfront.defaultRootObject (cloudfront.props (distribution fs))
       = s3.websiteIndexDocument (s3.props (bucket fs))
    /\ s3.websiteIndexDocument (s3.props (bucket fs))
       ∈ publishedFiles deployment.
Proof.
  run_constructor (new_FrontendStack scope id props).
  eexists. split; [reflexivity|].
  do 3 (split; [reflexivity|]).
  cbn. apply list_elem_of_singleton. reflexivity.
Qed.


(** X11: the objects the stacks expose denote the resources they declared:
    each public field refers into its own stack, and the construct found there
    has the kind and the properties the object carries. *)
Theorem exposed_objects_denote_declared_resources
    (props : option cdk.StackProps) (frontendProps : FrontendStackProps) :
  (exists w,
      new_WafStack scope id props = Ok w
      /\ ref_stack (wafv2.ref (webAcl w)) = scope ++ [id]
      /\ kind <$> findAt (ref_path (wafv2.ref (webAcl w))) (WafStack_node w)
         = Some (KCfnWebACL (wafv2.props (webAcl w))))
  /\ (exists b,
        new_BackendStack scope id props = Ok b
        /\ ref_stack (apigateway.ref (apiGateway b)) = scope ++ [id]
        /\ kind <$> findAt (ref_path (apigateway.ref (apiGateway b)))
                           (BackendStack_node b)
           = Some (KRestApi (apigateway.props (apiGateway b))))
  /\ (exists fs,
        new_FrontendStack scope id frontendProps = Ok fs
        /\ ref_stack (s3.ref (bucket fs)) = scope ++ [id]
        /\ ref_stack (cloudfront.ref (distribution fs)) = scope ++ [id]
        /\ kind <$> findAt (ref_path (s3.ref (bucket fs)))
                           (FrontendStack_node fs)
           = Some (KBucket (s3.props (bucket fs)))
        /\ kind <$> findAt (ref_path (cloudfront.ref (distribution fs)))
                           (FrontendStack_node fs)
           = Some (KDistribution (cloudfront.props (distribution fs)))).
Proof.
  split; [|split].
  - run_constructor (new_WafStack scope id props). repeat split.
  - run_constructor (new_BackendStack scope id props). repeat split.
  - run_constructor (new_FrontendStack scope id frontendProps). repeat split.
Qed.


(** X14: the web ACL is declared for the CloudFront scope, and the ACL and
    every rule of it have request sampling and CloudWatch metrics switched
    on, each rule under a metric named like the rule. *)
Theorem WafStack_visibility (props : option cdk.StackProps) :
  exists w,
    new_WafStack scope id props = Ok w
    /\ (let acl := wafv2.props (webAcl w) in
        wafv2.scope acl = "CLOUDFRONT"
        /\ wafv2.sampledRequestsEnabled (wafv2.aclVisibilityConfig acl) = true
        /\ wafv2.cloudWatchMetricsEnabled (wafv2.aclVisibilityConfig acl)
           = true
        /\ forall rule, rule ∈ wafv2.rules acl ->
             wafv2.sampledRequestsEnabled (wafv2.visibilityConfig rule) = true
             /\ wafv2.cloudWatchMetricsEnabled (wafv2.visibilityConfig rule)
                = true
             /\ wafv2.metricName (wafv2.visibilityConfig rule)
                = wafv2.name rule).
Proof.
  run_constructor (new_WafStack scope id props).
  split; [reflexivity|]. cbv zeta. cbn [webAcl wafv2.props].
  do 3 (split; [reflexivity|]).
  intros rule Hrule. apply list_elem_of_singleton in Hrule as ->.
  repeat split.
Qed.
End StacksTogether.
